(** * Idempotency_Engine/main.py — the idempotent payment processor

    A shallow embedding of [PaymentProcessor] (class, store and
    [process_payment]) together with the properties of the engine
    specification that can be stated over it.

    Conventions of the embedding:
    - [self.processed_keys : dict[str, str]] is a [gmap string string];
      [key in d] is a lookup, [d[key] = v] is an insert;
    - [print] appends a line to the [stdout] field of the world;
    - [random.random()] reads the next sample of a tape of rationals, the
      exact values of the floats the generator would return;
    - a Python call either returns a value or raises; in both cases the
      mutations done so far stay in the world. *)

From Stdlib Require Import QArith.
From stdpp Require Import gmap strings pretty.

Open Scope string_scope.
Open Scope Z_scope.

(** ** decimal.Decimal: representation and [str] *)

Module Dec.

(** The three shapes of a [Decimal] object: [_sign], the coefficient
    [_int] (a string of decimal digits without leading zeros, here the
    number it spells) and [_exp]; the infinities ([_exp = 'F']); quiet
    and signalling NaN ([_exp = 'n'] / ['N']) with their payload. *)
Inductive Decimal : Type :=
| Finite (sign : bool) (coefficient : N) (exp : Z)
| Infinity (sign : bool)
| NaN (sign signaling : bool) (payload : string).

Definition sign_prefix (sign : bool) : string :=
  if sign then "-" else EmptyString.

Fixpoint zeros (n : nat) : string :=
  match n with
  | O => EmptyString
  | S n' => "0" +:+ zeros n'
  end.

(** ["%+d" % z] *)
Definition format_plus_d (z : Z) : string :=
  if z <? 0 then "-" +:+ pretty (Z.abs_N z) else "+" +:+ pretty (Z.abs_N z).

(** [Decimal.__str__] (scientific notation, [context.capitals = 1]);
    an f-string field [{amount}] with an empty format specification
    produces the same text. *)
Definition str (d : Decimal) : string :=
  match d with
  | Infinity s => sign_prefix s +:+ "Infinity"
  | NaN s false p => sign_prefix s +:+ "NaN" +:+ p
  | NaN s true p => sign_prefix s +:+ "sNaN" +:+ p
  | Finite s c e =>
      let int_ := pretty c in
      let len := Z.of_nat (String.length int_) in
      let leftdigits := e + len in
      let dotplace :=
        if (e <=? 0) && (-6 <? leftdigits) then leftdigits else 1 in
      let intpart :=
        if dotplace <=? 0 then "0"
        else if len <=? dotplace
             then int_ +:+ zeros (Z.to_nat (dotplace - len))
             else String.substring 0 (Z.to_nat dotplace) int_ in
      let fracpart :=
        if dotplace <=? 0 then "." +:+ zeros (Z.to_nat (- dotplace)) +:+ int_
        else if len <=? dotplace then EmptyString
             else "." +:+ String.substring (Z.to_nat dotplace)
                                    (Z.to_nat (len - dotplace)) int_ in
      let exp :=
        if leftdigits =? dotplace then EmptyString
        else "E" +:+ format_plus_d (leftdigits - dotplace) in
      sign_prefix s +:+ intpart +:+ fracpart +:+ exp
  end.

(** [d.is_finite()] *)
Definition is_finite (d : Decimal) : bool :=
  match d with Finite _ _ _ => true | _ => false end.

(** [d < 0]: a negative sign on a non-zero number or on an infinity;
    every comparison with a NaN is false. *)
Definition is_negative (d : Decimal) : bool :=
  match d with
  | Finite s c _ => s && negb (c =? 0)%N
  | Infinity s => s
  | NaN _ _ _ => false
  end.

End Dec.

Abbreviation Decimal := Dec.Decimal.

(** [Decimal("1000.00")], the amount of the demonstration driver, and
    [Decimal("-5.00")]. *)
Definition amount_1000_00 : Decimal := Dec.Finite false 100000 (-2).
Definition amount_minus_5_00 : Decimal := Dec.Finite true 500 (-2).
Definition amount_50_00 : Decimal := Dec.Finite false 5000 (-2).

(** ** Floats of [random.random()] and the literal [0.2] *)

(** The binary64 value denoted by the literal [0.2]. *)
Definition float_0_2 : Q := 3602879701896397 # 18014398509481984.

(** [x < y] on floats, through their exact values. *)
Definition float_lt (x y : Q) : bool :=
  (Qnum x * Zpos (Qden y) <? Qnum y * Zpos (Qden x))%Z.

(** ** The world a call runs in *)

Record world : Type := World {
  processed_keys : gmap string string;  (* self.processed_keys *)
  stdout : list string;                 (* lines printed so far *)
  random_tape : nat -> Q;               (* the samples of the generator *)
  random_pos : nat                      (* samples consumed so far *)
}.

Inductive exception : Type :=
| ConnectionError (message : string).

Inductive result (A : Type) : Type :=
| Return (value : A)
| Raise (e : exception).
Arguments Return {A} value.
Arguments Raise {A} e.

(** Computations over the world that may raise. *)
Definition Py (A : Type) : Type := world -> result A * world.

#[global] Instance Py_ret : MRet Py := fun A a w => (Return a, w).

#[global] Instance Py_bind : MBind Py := fun A B f m w =>
  match m w with
  | (Return a, w') => f a w'
  | (Raise e, w') => (Raise e, w')
  end.

Definition raise {A : Type} (e : exception) : Py A :=
  fun w => (Raise e, w).

(** [key in self.processed_keys] *)
Definition dict_contains (key : string) : Py bool :=
  fun w => (Return (match processed_keys w !! key with
                    | Some _ => true
                    | None => false
                    end), w).

(** [self.processed_keys[key] = value] *)
Definition dict_setitem (key value : string) : Py unit :=
  fun w => (Return tt,
            {| processed_keys := <[key := value]> (processed_keys w);
               stdout := stdout w;
               random_tape := random_tape w;
               random_pos := random_pos w |}).

(** [print(line)] *)
Definition print (line : string) : Py unit :=
  fun w => (Return tt,
            {| processed_keys := processed_keys w;
               stdout := stdout w ++ [line];
               random_tape := random_tape w;
               random_pos := random_pos w |}).

(** [random.random()] *)
Definition random_random : Py Q :=
  fun w => (Return (random_tape w (random_pos w)),
            {| processed_keys := processed_keys w;
               stdout := stdout w;
               random_tape := random_tape w;
               random_pos := S (random_pos w) |}).

(** ** PaymentProcessor *)

(** [PaymentProcessor.__init__]: an empty store. *)
Definition init (tape : nat -> Q) : world :=
  {| processed_keys := ∅; stdout := []; random_tape := tape; random_pos := 0 |}.

Definition already_processed : string := "Payment already processed.".

Definition network_failed : string :=
  "Payment succeeded but Nigerian bank network failed while responding.".

(** [f"Processing payment of {amount} with key {idempotency_key}..."] *)
Definition processing_line (amount : Decimal) (idempotency_key : string) : string :=
  "Processing payment of " +:+ Dec.str amount +:+ " with key "
    +:+ idempotency_key +:+ "...".

(** [f"Success: processed payment of {amount} with key {idempotency_key}"] *)
Definition success_message (amount : Decimal) (idempotency_key : string) : string :=
  "Success: processed payment of " +:+ Dec.str amount +:+ " with key "
    +:+ idempotency_key.

Definition process_payment (idempotency_key : string) (amount : Decimal)
  : Py string :=
  seen ← dict_contains idempotency_key;
  if (seen : bool) then mret already_processed
  else
    print (processing_line amount idempotency_key);;
    let result := success_message amount idempotency_key in
    dict_setitem idempotency_key result;;
    r ← random_random;
    if float_lt r float_0_2
    then raise (ConnectionError network_failed)
    else mret result.

(** ** The caller's view (the driver's try/except around each call) *)

Inductive status : Type := Successful | AlreadyProcessed | Failed.

Definition status_of (r : result string) : status :=
  match r with
  | Return outcome_message =>
      if String.eqb outcome_message already_processed
      then AlreadyProcessed else Successful
  | Raise (ConnectionError _) => Failed
  end.

(** A caller that issues the calls one after the other, catching the
    [ConnectionError] of each as the driver does, and collects the
    responses. *)
Fixpoint run_calls (calls : list (string * Decimal)) (w : world)
  : list (result string) * world :=
  match calls with
  | [] => ([], w)
  | (key, amount) :: rest =>
      let '(r, w1) := process_payment key amount w in
      let '(rs, w2) := run_calls rest w1 in
      (r :: rs, w2)
  end.

(** ** Definitions used to state the properties *)

(** The world once lines 51-53 have run: the line is printed and the
    result is stored, no sample has been drawn yet. *)
Definition after_commit (idempotency_key : string) (amount : Decimal)
  (w : world) : world :=
  snd ((print (processing_line amount idempotency_key);;
        dict_setitem idempotency_key
          (success_message amount idempotency_key)) w).

(** The world after the draw of line 56. *)
Definition after_draw (w : world) : world := snd (random_random w).

(** The sample the next [random.random()] returns. *)
Definition next_sample (w : world) : Q := random_tape w (random_pos w).

(** Repeated calls with one key. *)
Definition same_key_calls (key : string) (amounts : list Decimal)
  : list (string * Decimal) :=
  map (fun amount => (key, amount)) amounts.

(** The amount contract of the specification: a non-negative finite
    monetary value. *)
Definition valid_amount (amount : Decimal) : bool :=
  Dec.is_finite amount && negb (Dec.is_negative amount).

(** The trial of the specification, on a uniform sample [r] of [0,1):
    with failure probability [p] it fires when [r < p]. *)
Definition spec_trial_fires (failure_probability r : Q) : bool :=
  float_lt r failure_probability.

(** The response the specification gives the committing call of a fresh
    key under a configured failure probability. *)
Definition spec_fresh_response (failure_probability : Q)
  (idempotency_key : string) (amount : Decimal) (r : Q) : result string :=
  if spec_trial_fires failure_probability r
  then Raise (ConnectionError network_failed)
  else Return (success_message amount idempotency_key).

(** Tapes for the examples: the draw never fires, always fires. *)
Definition tape_quiet : nat -> Q := fun _ => (1 # 2)%Q.
Definition tape_lossy : nat -> Q := fun _ => (1 # 10)%Q.

(** ** Callers whose calls interleave *)

(** Lines 48-63: what [process_payment] does once the test of line 47
    has given [seen]. *)
Definition process_payment_rest (idempotency_key : string) (amount : Decimal)
  (seen : bool) : Py string :=
  if seen then mret already_processed
  else
    print (processing_line amount idempotency_key);;
    let result := success_message amount idempotency_key in
    dict_setitem idempotency_key result;;
    r ← random_random;
    if float_lt r float_0_2
    then raise (ConnectionError network_failed)
    else mret result.





(** ** Counting over a sequence of calls *)

(** The amount of the first call of the sequence made with the key. *)
Fixpoint first_amount (key : string) (calls : list (string * Decimal))
  : option Decimal :=
  match calls with
  | [] => None
  | (key', amount) :: rest =>
      if decide (key' = key) then Some amount else first_amount key rest
  end.

(** A response that the caller does not label "Already processed". *)
Definition is_commit (r : result string) : bool :=
  match status_of r with
  | AlreadyProcessed => false
  | Successful | Failed => true
  end.

(** How many of the calls made with the key got such a response. *)
Fixpoint commits_on (key : string) (calls : list (string * Decimal))
  (responses : list (result string)) : nat :=
  match calls, responses with
  | (key', _) :: calls', r :: responses' =>
      ((if decide (key' = key) then if is_commit r then 1 else 0 else 0)
       + commits_on key calls' responses')%nat
  | _, _ => 0%nat
  end.

(** How many of the responses are such responses. *)
Definition commits (responses : list (result string)) : nat :=
  length (List.filter is_commit responses).

(** ** The demonstration script (lines 66-122) *)

(** The state of the script: the processor with the output and the
    generator of the process; the values [str(uuid.uuid4())] returns, in
    call order, and how many were taken; the keys of
    [processor.processed_keys] in insertion order, the order in which a
    Python dict is iterated; [failed_key] and [failed_amount], which are
    [None] together or set together. *)
Record script : Type := Script {
  processor : world;
  uuid_tape : nat -> string;
  uuid_pos : nat;
  insertion_order : list string;
  failed : option (string * Decimal)
}.

Definition max_transactions : nat := 8.

Definition newline : string := String (Ascii.ascii_of_nat 10) EmptyString.

(** The label the script computes from a response (lines 98-103 and
    113-115). *)
Definition status_label (st : status) : string :=
  match st with
  | Successful => "Successful"
  | AlreadyProcessed => "Already processed"
  | Failed => "Failed"
  end.

(** [print(line)] from the script. *)
Definition script_print (line : string) (s : script) : script :=
  {| processor := snd (print line (processor s));
     uuid_tape := uuid_tape s;
     uuid_pos := uuid_pos s;
     insertion_order := insertion_order s;
     failed := failed s |}.

(** [str(uuid.uuid4())] *)
Definition uuid4 (s : script) : string * script :=
  (uuid_tape s (uuid_pos s),
   {| processor := processor s;
      uuid_tape := uuid_tape s;
      uuid_pos := S (uuid_pos s);
      insertion_order := insertion_order s;
      failed := failed s |}).

(** [processor.process_payment(key, amount)] inside [try]; a key the call
    adds to the dict comes last in the iteration order. *)
Definition call_processor (key : string) (amount : Decimal) (s : script)
  : result string * script :=
  let '(r, w) := process_payment key amount (processor s) in
  (r,
   {| processor := w;
      uuid_tape := uuid_tape s;
      uuid_pos := uuid_pos s;
      insertion_order :=
        match processed_keys (processor s) !! key with
        | Some _ => insertion_order s
        | None => insertion_order s ++ [key]
        end;
      failed := failed s |}).

(** The body of the loop after the [break] test (lines 91-107). *)
Definition transaction (tx_number : nat) (s : script) : script :=
  let '(current_key, s0) := uuid4 s in
  let current_amount := amount_1000_00 in
  let '(r, s1) := call_processor current_key current_amount s0 in
  let status := status_label (status_of r) in
  let s2 :=
    match r with
    | Return _ => s1
    | Raise (ConnectionError _) =>
        {| processor := processor s1;
           uuid_tape := uuid_tape s1;
           uuid_pos := uuid_pos s1;
           insertion_order := insertion_order s1;
           failed := Some (current_key, current_amount) |}
    end in
  script_print ("Transaction " +:+ pretty tx_number +:+ ": Key=" +:+ current_key
                  +:+ ", Status=" +:+ status) s2.

(** [for tx_number in ...: if failed_key is not None: break ...] *)
Fixpoint main_loop (tx_numbers : list nat) (s : script) : script :=
  match tx_numbers with
  | [] => s
  | tx_number :: rest =>
      match failed s with
      | Some _ => s
      | None => main_loop rest (transaction tx_number s)
      end
  end.

(** Lines 110-117. *)
Definition retry (s : script) : script :=
  match failed s with
  | None => s
  | Some (failed_key, failed_amount) =>
      let '(r, s1) := call_processor failed_key failed_amount s in
      let retry_status := status_label (status_of r) in
      script_print (newline +:+ "Retry Transaction: Key=" +:+ failed_key
                      +:+ ", Status=" +:+ retry_status) s1
  end.

Definition stored_key_line (stored_key : string) : string :=
  "- Stored Key=" +:+ stored_key.

(** Lines 120-122. *)
Definition snapshot (s : script) : script :=
  fold_left (fun s' stored_key => script_print (stored_key_line stored_key) s')
    (insertion_order s)
    (script_print (newline +:+ "Database snapshot (processed_keys):") s).

(** Line 66 and lines 82-84. *)
Definition start (uuids : nat -> string) (tape : nat -> Q) : script :=
  {| processor := init tape;
     uuid_tape := uuids;
     uuid_pos := 0;
     insertion_order := [];
     failed := None |}.

(** The script up to the retry, and the whole script. *)
Definition run_transactions (uuids : nat -> string) (tape : nat -> Q) : script :=
  main_loop (seq 1 max_transactions) (start uuids tape).

Definition main (uuids : nat -> string) (tape : nat -> Q) : script :=
  snapshot (retry (run_transactions uuids tape)).

(** The line of a retry answered with the notice, and the first line of
    the snapshot. *)
Definition retry_line (k : string) : string :=
  newline +:+ "Retry Transaction: Key=" +:+ k +:+ ", Status=Already processed".

Definition snapshot_header : string :=
  newline +:+ "Database snapshot (processed_keys):".

(** What holds of the script's state at every point of a run. *)
Definition script_inv (s : script) : Prop :=
  NoDup (insertion_order s)
  /\ (forall k, k ∈ insertion_order s <-> is_Some (processed_keys (processor s) !! k))
  /\ (forall k, is_Some (processed_keys (processor s) !! k) <->
                exists i, (i < uuid_pos s)%nat /\ uuid_tape s i = k)
  /\ (forall k v, processed_keys (processor s) !! k = Some v ->
                  v = success_message amount_1000_00 k)
  /\ (random_pos (processor s) <= uuid_pos s)%nat
  /\ (forall k a, failed s = Some (k, a) ->
                  a = amount_1000_00 /\ (0 < uuid_pos s)%nat
                  /\ k = uuid_tape s (pred (uuid_pos s))).

(** The two lines a transaction that succeeds adds to the output: the
    one of the processor and the one of the script; [i] counts from 0. *)
Definition transaction_lines (uuids : nat -> string) (i : nat) : list string :=
  [processing_line amount_1000_00 (uuids i);
   "Transaction " +:+ pretty (S i) +:+ ": Key=" +:+ uuids i +:+ ", Status=Successful"].

(** The state of a run in which no draw has fired and no uuid has come
    twice so far. *)
Definition quiet_run (s : script) : Prop :=
  failed s = None
  /\ random_pos (processor s) = uuid_pos s
  /\ size (processed_keys (processor s)) = uuid_pos s
  /\ insertion_order s = map (uuid_tape s) (seq 0 (uuid_pos s))
  /\ (forall k, is_Some (processed_keys (processor s) !! k) <->
                exists i, (i < uuid_pos s)%nat /\ uuid_tape s i = k)
  /\ stdout (processor s)
     = flat_map (transaction_lines (uuid_tape s)) (seq 0 (uuid_pos s)).

(** Keys for the examples: "tx-0", "tx-1", ... *)
Definition uuids_tx : nat -> string := fun n => "tx-" +:+ pretty n.

(** A tape whose third sample is the first to fire. *)
Definition tape_third : nat -> Q :=
  fun n => match n with 2%nat => (1 # 10)%Q | _ => (1 # 2)%Q end.

(** ** Basic facts *)

(** [str] on a few amounts. *)
Example str_1000_00 : Dec.str amount_1000_00 = "1000.00".
Proof. reflexivity. Qed.
Example str_minus_5_00 : Dec.str amount_minus_5_00 = "-5.00".
Proof. reflexivity. Qed.
Example str_sci : Dec.str (Dec.Finite false 1 (-7)) = "1E-7".
Proof. reflexivity. Qed.
Example str_sci2 : Dec.str (Dec.Finite false 123 3) = "1.23E+5".
Proof. reflexivity. Qed.
Example str_small : Dec.str (Dec.Finite true 5 (-3)) = "-0.005".
Proof. reflexivity. Qed.
Example str_nan : Dec.str (Dec.NaN false false EmptyString) = "NaN".
Proof. reflexivity. Qed.

Lemma float_lt_spec (x y : Q) : float_lt x y = true <-> (x < y)%Q.
Proof. unfold float_lt, Qlt. apply Z.ltb_lt. Qed.

(** On the grid of the generator (multiples of 2^-53) comparing with the
    float [0.2] is comparing with one fifth. *)
Lemma float_0_2_is_one_fifth (k : Z) :
  float_lt (k # 9007199254740992) float_0_2
  = float_lt (k # 9007199254740992) (1 # 5).
Proof.
  unfold float_lt, float_0_2; cbn [Qnum Qden].
  destruct (Z.ltb_spec (k * 18014398509481984) (3602879701896397 * 9007199254740992));
    destruct (Z.ltb_spec (k * 5) (1 * 9007199254740992)); try reflexivity; lia.
Qed.

Lemma success_is_not_duplicate_notice (a : Decimal) (k : string) :
  success_message a k <> already_processed.
Proof. unfold success_message, already_processed. discriminate. Qed.

(** The two paths of [process_payment]. *)
Lemma process_payment_seen (k : string) (a : Decimal) (w : world) :
  is_Some (processed_keys w !! k) ->
  process_payment k a w = (Return already_processed, w).
Proof.
  intros [v Hv].
  unfold process_payment, mbind, Py_bind, dict_contains.
  rewrite Hv. reflexivity.
Qed.

Lemma process_payment_fresh (k : string) (a : Decimal) (w : world) :
  processed_keys w !! k = None ->
  process_payment k a w =
    (if float_lt (next_sample (after_commit k a w)) float_0_2
     then Raise (ConnectionError network_failed)
     else Return (success_message a k),
     after_draw (after_commit k a w)).
Proof.
  intros Hk.
  unfold process_payment, mbind, Py_bind, dict_contains.
  rewrite Hk.
  unfold after_draw, after_commit, next_sample, mbind, Py_bind,
    print, dict_setitem, random_random, raise, mret, Py_ret.
  cbn [fst snd processed_keys stdout random_tape random_pos].
  destruct (float_lt _ _); reflexivity.
Qed.

Lemma after_commit_store (k : string) (a : Decimal) (w : world) :
  processed_keys (after_commit k a w) = <[k := success_message a k]> (processed_keys w).
Proof. reflexivity. Qed.

Lemma after_draw_store (w : world) :
  processed_keys (after_draw w) = processed_keys w.
Proof. reflexivity. Qed.

Lemma after_commit_sample (k : string) (a : Decimal) (w : world) :
  next_sample (after_commit k a w) = next_sample w.
Proof. reflexivity. Qed.

Lemma committed_lookup (k : string) (a : Decimal) (w : world) :
  processed_keys (after_draw (after_commit k a w)) !! k = Some (success_message a k).
Proof. rewrite after_draw_store, after_commit_store. apply lookup_insert_eq. Qed.

(** ** The store across calls *)

Lemma process_payment_store (k : string) (a : Decimal) (w : world) :
  processed_keys (snd (process_payment k a w)) =
    match processed_keys w !! k with
    | Some _ => processed_keys w
    | None => <[k := success_message a k]> (processed_keys w)
    end.
Proof.
  destruct (processed_keys w !! k) as [v|] eqn:Hk.
  - rewrite process_payment_seen by (rewrite Hk; eauto). reflexivity.
  - rewrite process_payment_fresh by exact Hk. reflexivity.
Qed.

(** An entry, once present, is never rewritten by a later call, whatever
    its key. *)
Lemma process_payment_keeps (k k' : string) (a : Decimal) (w : world) (v : string) :
  processed_keys w !! k' = Some v ->
  processed_keys (snd (process_payment k a w)) !! k' = Some v.
Proof.
  intros Hv. rewrite process_payment_store.
  destruct (processed_keys w !! k) as [u|] eqn:Hk; [exact Hv|].
  rewrite lookup_insert_ne; [exact Hv|]. congruence.
Qed.

Lemma run_calls_keeps (calls : list (string * Decimal)) :
  forall (w : world) (k' v : string),
    processed_keys w !! k' = Some v ->
    processed_keys (snd (run_calls calls w)) !! k' = Some v.
Proof.
  induction calls as [|[k a] rest IH]; intros w k' v Hv; [exact Hv|].
  cbn [run_calls].
  pose proof (process_payment_keeps k k' a w v Hv) as H1.
  destruct (process_payment k a w) as [r w1]. cbn [snd] in H1.
  specialize (IH w1 k' v H1).
  destruct (run_calls rest w1) as [rs w2]. exact IH.
Qed.

(** Calls on a key that is stored: all of them answer with the notice
    and the world stays as it is. *)
Lemma run_calls_seen (k : string) (amounts : list Decimal) (w : world) :
  is_Some (processed_keys w !! k) ->
  run_calls (same_key_calls k amounts) w =
    (map (fun _ => Return already_processed) amounts, w).
Proof.
  intros Hk. induction amounts as [|a rest IH]; [reflexivity|].
  cbn [same_key_calls map run_calls].
  rewrite process_payment_seen by exact Hk.
  unfold same_key_calls in IH. rewrite IH. reflexivity.
Qed.

(** Calls on a fresh key: the first one stores its result, the entry is
    the same after any number of further calls, and each of these
    further calls answers with the notice. *)
Lemma run_calls_fresh (k : string) (a : Decimal) (amounts : list Decimal) (w : world) :
  processed_keys w !! k = None ->
  run_calls (same_key_calls k (a :: amounts)) w =
    (fst (process_payment k a w) :: map (fun _ => Return already_processed) amounts,
     after_draw (after_commit k a w))
  /\ processed_keys (after_draw (after_commit k a w)) !! k = Some (success_message a k).
Proof.
  intros Hk.
  pose proof (committed_lookup k a w) as Hs.
  split; [|exact Hs].
  cbn [same_key_calls map run_calls].
  rewrite (process_payment_fresh k a w Hk). cbn [fst].
  fold (same_key_calls k amounts).
  rewrite run_calls_seen by (rewrite Hs; eauto).
  reflexivity.
Qed.

(** ** At-most-once and the reply of a duplicate *)

(** C1, evaluated on the code: three calls with key "k1" and amount
    1000.00 on an empty store, with draws that never fire.  One entry is
    created by the first call and persists unchanged, but the calls after
    the commit reply with the fixed notice, which is not the stored
    outcome: the reply of a duplicate does not carry the outcome's
    content. *)
Theorem duplicate_reply_is_not_the_stored_outcome :
  let calls := same_key_calls "k1" [amount_1000_00; amount_1000_00; amount_1000_00] in
  let stored := "Success: processed payment of 1000.00 with key k1" in
  fst (run_calls calls (init tape_quiet)) =
    [Return stored;
     Return "Payment already processed.";
     Return "Payment already processed."]
  /\ processed_keys (snd (run_calls calls (init tape_quiet))) = {[ "k1" := stored ]}
  /\ nth_error (fst (run_calls calls (init tape_quiet))) 1 <> Some (Return stored).
Proof.
  cbv zeta.
  destruct (run_calls_fresh "k1" amount_1000_00 [amount_1000_00; amount_1000_00]
              (init tape_quiet) eq_refl) as [Hrun _].
  rewrite Hrun. cbn [fst snd].
  split; [reflexivity|]. split; [reflexivity|].
  cbn. discriminate.
Qed.

(** ** Commit precedes signal *)

(** C2: when a call raises [ConnectionError], the key was fresh, the
    line was printed and the outcome stored before the sample was drawn
    (the raising world is the committed world with one sample consumed),
    and the store observed right after the call holds the outcome of the
    key. *)
Theorem commit_precedes_signal (k : string) (a : Decimal) (w w' : world)
    (e : exception) :
  process_payment k a w = (Raise e, w') ->
  e = ConnectionError network_failed
  /\ processed_keys w !! k = None
  /\ processed_keys (after_commit k a w) !! k = Some (success_message a k)
  /\ float_lt (next_sample (after_commit k a w)) float_0_2 = true
  /\ w' = after_draw (after_commit k a w)
  /\ processed_keys w' !! k = Some (success_message a k).
Proof.
  intros Hcall.
  destruct (processed_keys w !! k) as [v|] eqn:Hk.
  - rewrite process_payment_seen in Hcall by (rewrite Hk; eauto). discriminate.
  - rewrite (process_payment_fresh k a w Hk) in Hcall.
    assert (Hs : processed_keys (after_commit k a w) !! k = Some (success_message a k))
      by (rewrite after_commit_store; apply lookup_insert_eq).
    destruct (float_lt (next_sample (after_commit k a w)) float_0_2) eqn:Hr;
      [|discriminate].
    injection Hcall as He Hw. subst e w'.
    repeat split; try reflexivity; try assumption.
Qed.

Lemma commit_precedes_signal_witness :
  processed_keys (snd (process_payment "k1" amount_1000_00 (init tape_lossy))) !! "k1"
  = Some "Success: processed payment of 1000.00 with key k1".
Proof.
  apply (commit_precedes_signal "k1" amount_1000_00 (init tape_lossy)
           (snd (process_payment "k1" amount_1000_00 (init tape_lossy)))
           (ConnectionError network_failed)).
  reflexivity.
Defined.

(** ** Retry after a lost acknowledgment *)

(** C3, evaluated on the code: the first call with key "k1" and amount
    1000.00 raises [ConnectionError] after its commit; the retry with the
    same key and the same amount replies with the fixed notice, which
    holds neither the outcome nor its amount; the stored outcome still
    holds the amount of the first call. *)
Theorem retry_reply_carries_no_outcome :
  let calls := same_key_calls "k1" [amount_1000_00; amount_1000_00] in
  fst (run_calls calls (init tape_lossy)) =
    [Raise (ConnectionError network_failed);
     Return "Payment already processed."]
  /\ processed_keys (snd (run_calls calls (init tape_lossy))) !! "k1"
     = Some "Success: processed payment of 1000.00 with key k1"
  /\ nth_error (fst (run_calls calls (init tape_lossy))) 1
     <> Some (Return (success_message amount_1000_00 "k1")).
Proof.
  cbv zeta.
  destruct (run_calls_fresh "k1" amount_1000_00 [amount_1000_00]
              (init tape_lossy) eq_refl) as [Hrun Hs].
  rewrite Hrun. cbn [fst snd].
  split; [reflexivity|]. split; [exact Hs|].
  cbn. discriminate.
Qed.

(** ** Amounts are not validated *)

(** C4 as stated fails: [process_payment("k1", Decimal("-5.00"))] on an
    empty store does not fail; it returns the success message and the key
    is stored. *)
Lemma negative_amount_is_committed :
  valid_amount amount_minus_5_00 = false
  /\ processed_keys (init tape_quiet) !! "k1" = None
  /\ fst (process_payment "k1" amount_minus_5_00 (init tape_quiet))
     = Return "Success: processed payment of -5.00 with key k1"
  /\ processed_keys (snd (process_payment "k1" amount_minus_5_00 (init tape_quiet))) !! "k1"
     = Some "Success: processed payment of -5.00 with key k1"
  /\ processed_keys (snd (process_payment "k1" amount_minus_5_00 (init tape_quiet))) !! "k1"
     <> None.
Proof. repeat split; try reflexivity. discriminate. Qed.

(** C4, amended: a negative or non-finite amount is processed like any
    other.  On a fresh key the line is printed, the outcome built from
    the amount as written is stored, and the call returns that outcome or
    raises [ConnectionError]; no other failure exists and the key is in
    the store after the call. *)
Theorem amount_is_not_validated (k : string) (a : Decimal) (w : world) :
  valid_amount a = false ->
  processed_keys w !! k = None ->
  (fst (process_payment k a w) = Return (success_message a k)
   \/ fst (process_payment k a w) = Raise (ConnectionError network_failed))
  /\ processed_keys (snd (process_payment k a w)) !! k = Some (success_message a k)
  /\ stdout (snd (process_payment k a w)) = (stdout w ++ [processing_line a k])%list.
Proof.
  intros _ Hk. rewrite (process_payment_fresh k a w Hk). cbn [fst snd].
  split; [destruct (float_lt _ _); auto|].
  split; [apply committed_lookup|reflexivity].
Qed.

Lemma amount_is_not_validated_witness :
  processed_keys (snd (process_payment "k1" (Dec.NaN false false EmptyString) (init tape_lossy))) !! "k1"
  = Some "Success: processed payment of NaN with key k1".
Proof.
  apply (amount_is_not_validated "k1" (Dec.NaN false false EmptyString) (init tape_lossy));
    reflexivity.
Defined.

(** ** The duplicate path *)

(** C5: for a key that has a stored outcome, the call returns the
    duplicate notice whatever the amount; the amount plays no part in the
    call, so two calls that differ in the amount only behave alike, and
    the caller labels the response "Already processed". *)
Theorem duplicate_whatever_the_amount (k : string) (a : Decimal) (w : world) :
  is_Some (processed_keys w !! k) ->
  fst (process_payment k a w) = Return already_processed
  /\ status_of (fst (process_payment k a w)) = AlreadyProcessed
  /\ forall a' : Decimal, process_payment k a' w = process_payment k a w.
Proof.
  intros Hk. rewrite (process_payment_seen k a w Hk). cbn [fst].
  split; [reflexivity|]. split; [reflexivity|].
  intros a'. apply process_payment_seen, Hk.
Qed.

Lemma duplicate_whatever_the_amount_witness :
  fst (process_payment "k1" amount_50_00
         (snd (process_payment "k1" amount_1000_00 (init tape_quiet))))
  = Return "Payment already processed.".
Proof.
  apply (duplicate_whatever_the_amount "k1" amount_50_00
           (snd (process_payment "k1" amount_1000_00 (init tape_quiet)))).
  exists "Success: processed payment of 1000.00 with key k1". reflexivity.
Defined.

(** C7: on a key present in the store the call does nothing but the
    lookup: it returns the notice and leaves the whole world as it was
    (every entry of the store, the key's own included, the printed
    lines, the position of the generator). *)
Theorem duplicate_path_has_no_effect (k : string) (a : Decimal) (w : world) :
  is_Some (processed_keys w !! k) ->
  process_payment k a w = (Return already_processed, w).
Proof. apply process_payment_seen. Qed.

Lemma duplicate_path_has_no_effect_witness :
  let w := snd (process_payment "k1" amount_1000_00 (init tape_lossy)) in
  process_payment "k1" amount_1000_00 w = (Return "Payment already processed.", w).
Proof.
  apply (duplicate_path_has_no_effect "k1" amount_1000_00
           (snd (process_payment "k1" amount_1000_00 (init tape_lossy)))).
  exists "Success: processed payment of 1000.00 with key k1". reflexivity.
Defined.

(** ** Failure injection *)

(** C6 as stated fails: the code has no failure probability to
    configure.  Under a configured probability of 1 the trial fires on
    the sample 1/2, yet the call returns the committed outcome; under a
    configured probability of 0 it never fires, yet the call raises on
    the sample 1/10. *)
Lemma failure_probability_is_not_configurable :
  spec_fresh_response 1 "k1" amount_1000_00 (next_sample (init tape_quiet))
    = Raise (ConnectionError network_failed)
  /\ fst (process_payment "k1" amount_1000_00 (init tape_quiet))
     = Return "Success: processed payment of 1000.00 with key k1"
  /\ spec_fresh_response 0 "k2" amount_50_00 (next_sample (init tape_lossy))
     = Return "Success: processed payment of 50.00 with key k2"
  /\ fst (process_payment "k2" amount_50_00 (init tape_lossy))
     = Raise (ConnectionError network_failed)
  /\ fst (process_payment "k1" amount_1000_00 (init tape_quiet))
     <> spec_fresh_response 1 "k1" amount_1000_00 (next_sample (init tape_quiet))
  /\ fst (process_payment "k2" amount_50_00 (init tape_lossy))
     <> spec_fresh_response 0 "k2" amount_50_00 (next_sample (init tape_lossy)).
Proof. repeat split; try reflexivity; discriminate. Qed.

(** C6, amended: for a fresh key, after the commit exactly one sample
    [r] is drawn, and the call raises [ConnectionError] iff [r] is below
    the float 0.2, the fixed failure probability of the code; otherwise
    it returns the committed outcome.  In both cases the outcome is
    stored. *)
Theorem failure_injection_at_fixed_probability (k : string) (a : Decimal)
    (w : world) :
  processed_keys w !! k = None ->
  let r := next_sample w in
  let w' := snd (process_payment k a w) in
  fst (process_payment k a w) = spec_fresh_response float_0_2 k a r
  /\ (fst (process_payment k a w) = Raise (ConnectionError network_failed)
      <-> (r < float_0_2)%Q)
  /\ (~ (r < float_0_2)%Q ->
      fst (process_payment k a w) = Return (success_message a k))
  /\ random_pos w' = S (random_pos w)
  /\ random_tape w' = random_tape w
  /\ processed_keys w' !! k = Some (success_message a k).
Proof.
  intros Hk r w'. subst w'.
  rewrite (process_payment_fresh k a w Hk). cbn [fst snd].
  rewrite after_commit_sample. fold r.
  unfold spec_fresh_response, spec_trial_fires.
  pose proof (float_lt_spec r float_0_2) as Hlt.
  split; [reflexivity|].
  split; [|split; [|split; [reflexivity|split; [reflexivity|]]]].
  - destruct (float_lt r float_0_2).
    + split; [intros _; apply Hlt; reflexivity | reflexivity].
    + split; [discriminate|]. intros H. apply Hlt in H. discriminate.
  - intros Hn. destruct (float_lt r float_0_2); [|reflexivity].
    exfalso. apply Hn, Hlt. reflexivity.
  - apply committed_lookup.
Qed.

Lemma failure_injection_at_fixed_probability_witness :
  fst (process_payment "k1" amount_1000_00 (init tape_lossy))
  = spec_fresh_response float_0_2 "k1" amount_1000_00 (1 # 10).
Proof.
  exact (proj1 (failure_injection_at_fixed_probability "k1" amount_1000_00
                  (init tape_lossy) eq_refl)).
Defined.

(** ** The committed reply *)

(** C9: for a fresh key, when the draw does not fire, the call returns
    exactly the string it stored for the key,
    "Success: processed payment of {amount} with key {key}". *)
Theorem committed_reply_is_the_stored_value (k : string) (a : Decimal) (w : world) :
  processed_keys w !! k = None ->
  float_lt (next_sample w) float_0_2 = false ->
  fst (process_payment k a w)
    = Return ("Success: processed payment of " +:+ Dec.str a +:+ " with key " +:+ k)
  /\ processed_keys (snd (process_payment k a w)) !! k
     = Some ("Success: processed payment of " +:+ Dec.str a +:+ " with key " +:+ k)
  /\ status_of (fst (process_payment k a w)) = Successful.
Proof.
  intros Hk Hr. rewrite (process_payment_fresh k a w Hk). cbn [fst snd].
  rewrite after_commit_sample, Hr.
  split; [reflexivity|]. split; [apply committed_lookup|reflexivity].
Qed.

Lemma committed_reply_is_the_stored_value_witness :
  fst (process_payment "k2" amount_50_00 (init tape_quiet))
  = Return "Success: processed payment of 50.00 with key k2".
Proof.
  apply (committed_reply_is_the_stored_value "k2" amount_50_00 (init tape_quiet));
    reflexivity.
Defined.

(** ** Frame *)

(** C10: a call with key [k] leaves the value of every other stored key
    as it was; the key set of the store does not shrink, and it grows by
    the key [k] at most. *)
Theorem other_keys_are_untouched (k : string) (a : Decimal) (w : world) :
  let w' := snd (process_payment k a w) in
  (forall k' : string, k' <> k -> processed_keys w' !! k' = processed_keys w !! k')
  /\ dom (processed_keys w) ⊆ dom (processed_keys w')
  /\ dom (processed_keys w') ⊆ dom (processed_keys w) ∪ {[ k ]}.
Proof.
  intros w'. subst w'. rewrite process_payment_store.
  destruct (processed_keys w !! k) as [v|] eqn:Hk.
  - split; [reflexivity|]. split; [reflexivity|apply union_subseteq_l].
  - split.
    + intros k' Hne. apply lookup_insert_ne. congruence.
    + rewrite dom_insert_L. split; [apply union_subseteq_r|].
      rewrite (comm_L (∪)). reflexivity.
Qed.

(** * Further properties of the processor *)

(** ** Shared facts *)

Lemma run_calls_cons (k : string) (a : Decimal) (rest : list (string * Decimal))
    (w : world) :
  run_calls ((k, a) :: rest) w =
    (fst (process_payment k a w) :: fst (run_calls rest (snd (process_payment k a w))),
     snd (run_calls rest (snd (process_payment k a w)))).
Proof.
  cbn [run_calls]. destruct (process_payment k a w) as [r w1]. cbn [fst snd].
  destruct (run_calls rest w1) as [rs w2]. reflexivity.
Qed.

Lemma status_of_success (a : Decimal) (k : string) :
  status_of (Return (success_message a k)) = Successful.
Proof. reflexivity. Qed.

(** The response of a call, by cases on the store and on the sample. *)
Lemma process_payment_cases (k : string) (a : Decimal) (w : world) :
  (is_Some (processed_keys w !! k)
   /\ process_payment k a w = (Return already_processed, w))
  \/ (processed_keys w !! k = None
      /\ float_lt (next_sample w) float_0_2 = true
      /\ process_payment k a w
         = (Raise (ConnectionError network_failed), after_draw (after_commit k a w)))
  \/ (processed_keys w !! k = None
      /\ float_lt (next_sample w) float_0_2 = false
      /\ process_payment k a w
         = (Return (success_message a k), after_draw (after_commit k a w))).
Proof.
  destruct (processed_keys w !! k) as [v|] eqn:Hk.
  - left. split; [eauto|]. apply process_payment_seen. eauto.
  - right. rewrite (process_payment_fresh k a w Hk), after_commit_sample.
    destruct (float_lt (next_sample w) float_0_2); [left|right]; auto.
Qed.

Lemma is_commit_call (k : string) (a : Decimal) (w : world) :
  is_commit (fst (process_payment k a w))
  = match processed_keys w !! k with Some _ => false | None => true end.
Proof.
  destruct (process_payment_cases k a w) as [[[v Hv] ->]|[(Hk & _ & ->)|(Hk & _ & ->)]];
    cbn [fst]; [rewrite Hv|rewrite Hk|rewrite Hk]; reflexivity.
Qed.

Lemma run_calls_lookup (calls : list (string * Decimal)) :
  forall (w : world) (k : string),
    processed_keys (snd (run_calls calls w)) !! k =
      match processed_keys w !! k with
      | Some v => Some v
      | None => (fun a => success_message a k) <$> first_amount k calls
      end.
Proof.
  induction calls as [|[k' a] rest IH]; intros w k.
  - cbn. destruct (processed_keys w !! k); reflexivity.
  - rewrite run_calls_cons. cbn [snd first_amount]. rewrite IH.
    rewrite process_payment_store.
    destruct (decide (k' = k)) as [->|Hne].
    + destruct (processed_keys w !! k) as [v|] eqn:Hk.
      * rewrite Hk. reflexivity.
      * rewrite lookup_insert_eq. reflexivity.
    + destruct (processed_keys w !! k') as [v'|]; [reflexivity|].
      rewrite lookup_insert_ne by exact Hne. reflexivity.
Qed.

Lemma commits_cons (r : result string) (rs : list (result string)) :
  commits (r :: rs) = ((if is_commit r then 1 else 0) + commits rs)%nat.
Proof. unfold commits. cbn [List.filter]. destruct (is_commit r); reflexivity. Qed.

(** What one call adds: nothing when the response is the notice; one
    entry, one printed line and one sample otherwise. *)
Lemma process_payment_accounting (k : string) (a : Decimal) (w : world) :
  let n := if is_commit (fst (process_payment k a w)) then 1%nat else 0%nat in
  let w' := snd (process_payment k a w) in
  size (processed_keys w') = (size (processed_keys w) + n)%nat
  /\ random_pos w' = (random_pos w + n)%nat
  /\ length (stdout w') = (length (stdout w) + n)%nat.
Proof.
  cbv zeta. rewrite is_commit_call.
  destruct (processed_keys w !! k) as [v|] eqn:Hk.
  - rewrite process_payment_seen by (rewrite Hk; eauto). cbn [snd].
    repeat split; lia.
  - rewrite (process_payment_fresh k a w Hk). cbn [snd].
    rewrite after_draw_store, after_commit_store.
    rewrite (map_size_insert_None _ _ _ Hk).
    unfold after_draw, after_commit, random_random, print, dict_setitem,
      mbind, Py_bind.
    cbn [snd fst random_pos stdout]. rewrite length_app. cbn [length].
    repeat split; lia.
Qed.

(** ** Labels *)

(** X1: the label the caller derives from a response tells what the call
    did: "Already processed" exactly when the key was stored before the
    call, "Failed" exactly when the key was fresh and the sample was below
    0.2, "Successful" exactly when the key was fresh and the sample was
    not; a success message is never mistaken for the notice. *)
Theorem label_tells_what_the_call_did (k : string) (a : Decimal) (w : world) :
  let st := status_of (fst (process_payment k a w)) in
  (st = AlreadyProcessed <-> is_Some (processed_keys w !! k))
  /\ (st = Failed <->
      processed_keys w !! k = None /\ float_lt (next_sample w) float_0_2 = true)
  /\ (st = Successful <->
      processed_keys w !! k = None /\ float_lt (next_sample w) float_0_2 = false).
Proof.
  cbv zeta.
  destruct (process_payment_cases k a w)
    as [[[v Hv] ->]|[(Hk & Hr & ->)|(Hk & Hr & ->)]]; cbn [fst].
  - rewrite Hv. split; [split; eauto|].
    split; (split; [discriminate|intros [? _]; discriminate]).
  - rewrite Hk, Hr. split; [split; [discriminate|intros [? ?]; discriminate]|].
    split; [split; auto|]. split; [discriminate|intros [_ ?]; discriminate].
  - rewrite Hk, Hr, status_of_success.
    split; [split; [discriminate|intros [? ?]; discriminate]|].
    split; [split; [discriminate|intros [_ ?]; discriminate]|]. split; auto.
Qed.

(** ** Composition of calls *)

(** X2: whatever a call did (returned or raised, fresh key or not), a
    second call with the same key, with any amount, returns the notice
    and leaves the world exactly as the first call left it. *)
Theorem second_call_changes_nothing (k : string) (a a' : Decimal) (w : world) :
  process_payment k a' (snd (process_payment k a w))
  = (Return already_processed, snd (process_payment k a w)).
Proof.
  apply process_payment_seen. rewrite process_payment_store.
  destruct (processed_keys w !! k) as [v|] eqn:Hk.
  - rewrite Hk. eauto.
  - rewrite lookup_insert_eq. eauto.
Qed.

(** X3: first writer wins.  After any sequence of calls, the entry of a
    key that was stored before is the old one; the entry of a key that
    was not is the success message built from the amount of the first
    call made with that key, whatever the later calls passed; a key no
    call used has no entry. *)
Theorem first_writer_wins (calls : list (string * Decimal)) (w : world)
    (k : string) :
  processed_keys (snd (run_calls calls w)) !! k =
    match processed_keys w !! k with
    | Some v => Some v
    | None => (fun a => success_message a k) <$> first_amount k calls
    end.
Proof. apply run_calls_lookup. Qed.

(** X4: in any sequence of calls, the calls made with one key get at
    most one response other than the notice: none when the key was stored
    at the start or is not used, exactly one otherwise. *)
Theorem one_commit_per_key (calls : list (string * Decimal)) (w : world)
    (k : string) :
  commits_on k calls (fst (run_calls calls w)) =
    match processed_keys w !! k, first_amount k calls with
    | None, Some _ => 1%nat
    | _, _ => 0%nat
    end
  /\ (commits_on k calls (fst (run_calls calls w)) <= 1)%nat.
Proof.
  assert (Heq : forall calls w,
    commits_on k calls (fst (run_calls calls w)) =
      match processed_keys w !! k, first_amount k calls with
      | None, Some _ => 1%nat
      | _, _ => 0%nat
      end).
  { clear calls w. induction calls as [|[k' a] rest IH]; intros w.
    - cbn. destruct (processed_keys w !! k); reflexivity.
    - rewrite run_calls_cons. cbn [fst commits_on first_amount].
      rewrite IH, is_commit_call, process_payment_store.
      destruct (decide (k' = k)) as [->|Hne].
      + destruct (processed_keys w !! k) as [v|] eqn:Hk.
        * rewrite Hk. reflexivity.
        * rewrite lookup_insert_eq. reflexivity.
      + destruct (processed_keys w !! k') as [v'|]; [reflexivity|].
        rewrite lookup_insert_ne by exact Hne. reflexivity. }
  split; [apply Heq|]. rewrite Heq.
  destruct (processed_keys w !! k); [lia|].
  destruct (first_amount k calls); lia.
Qed.

(** X5: over any sequence of calls, the store gains one entry, the
    output one line and the generator gives one sample for each response
    other than the notice, and nothing else: duplicates neither print nor
    draw. *)
Theorem one_entry_line_and_sample_per_commit (calls : list (string * Decimal))
    (w : world) :
  let n := commits (fst (run_calls calls w)) in
  let w' := snd (run_calls calls w) in
  size (processed_keys w') = (size (processed_keys w) + n)%nat
  /\ random_pos w' = (random_pos w + n)%nat
  /\ length (stdout w') = (length (stdout w) + n)%nat.
Proof.
  cbv zeta. revert w. induction calls as [|[k a] rest IH]; intros w.
  - cbn. repeat split; lia.
  - rewrite run_calls_cons. cbn [fst snd]. rewrite commits_cons.
    destruct (IH (snd (process_payment k a w))) as (H1 & H2 & H3).
    destruct (process_payment_accounting k a w) as (G1 & G2 & G3).
    rewrite H1, H2, H3, G1, G2, G3. repeat split; lia.
Qed.

(** X6: the draws decide between "Successful" and "Failed" only.  Two
    runs of the same calls from worlds with the same store, whatever
    their generators and outputs, end with the same store, and the same
    calls are answered with the notice. *)
Theorem store_is_independent_of_the_draws (calls : list (string * Decimal))
    (w1 w2 : world) :
  processed_keys w1 = processed_keys w2 ->
  processed_keys (snd (run_calls calls w1)) = processed_keys (snd (run_calls calls w2))
  /\ map is_commit (fst (run_calls calls w1)) = map is_commit (fst (run_calls calls w2)).
Proof.
  revert w1 w2. induction calls as [|[k a] rest IH]; intros w1 w2 Hs.
  - split; [exact Hs|reflexivity].
  - rewrite !run_calls_cons. cbn [fst snd map].
    assert (Hs' : processed_keys (snd (process_payment k a w1))
                  = processed_keys (snd (process_payment k a w2)))
      by (rewrite !process_payment_store, Hs; reflexivity).
    destruct (IH _ _ Hs') as [H1 H2].
    split; [exact H1|]. rewrite !is_commit_call, Hs, H2. reflexivity.
Qed.

Lemma store_is_independent_of_the_draws_witness :
  processed_keys (snd (run_calls [("k1", amount_1000_00); ("k2", amount_50_00)]
                         (init tape_quiet)))
  = processed_keys (snd (run_calls [("k1", amount_1000_00); ("k2", amount_50_00)]
                           (init tape_lossy))).
Proof.
  apply (store_is_independent_of_the_draws
           [("k1", amount_1000_00); ("k2", amount_50_00)]
           (init tape_quiet) (init tape_lossy)).
  reflexivity.
Defined.

(** X7: on the samples the generator can return, the multiples [n/2^53]
    of 2^-53, the test against the float 0.2 is the test against one
    fifth: a call with a fresh key raises exactly when
    [n <= 1801439850948198], that is when [5 n < 2^53]. *)
Theorem failure_threshold_on_the_grid (k : string) (a : Decimal) (w : world)
    (n : Z) :
  processed_keys w !! k = None ->
  next_sample w = (n # 9007199254740992)%Q ->
  (fst (process_payment k a w) = Raise (ConnectionError network_failed)
   <-> n <= 1801439850948198)
  /\ (n <= 1801439850948198 <-> 5 * n < 2 ^ 53).
Proof.
  intros Hk Hn.
  rewrite (process_payment_fresh k a w Hk), after_commit_sample, Hn. cbn [fst].
  split; [|lia].
  unfold float_lt, float_0_2; cbn [Qnum Qden].
  destruct (Z.ltb_spec (n * 18014398509481984) (3602879701896397 * 9007199254740992)).
  - split; [lia|reflexivity].
  - split; [discriminate|lia].
Qed.

Lemma failure_threshold_on_the_grid_witness :
  fst (process_payment "k1" amount_1000_00
         (init (fun _ => (1801439850948198 # 9007199254740992)%Q)))
  = Raise (ConnectionError network_failed).
Proof.
  apply (proj1 (failure_threshold_on_the_grid "k1" amount_1000_00
                  (init (fun _ => (1801439850948198 # 9007199254740992)%Q))
                  1801439850948198 eq_refl eq_refl)).
  lia.
Defined.

(** X8: after any sequence of calls the keys of the store are the keys
    it had plus the keys of all the calls, those that raised included. *)
Theorem every_called_key_is_stored (calls : list (string * Decimal)) (w : world) :
  dom (processed_keys (snd (run_calls calls w)))
  = dom (processed_keys w) ∪ list_to_set (calls.*1).
Proof.
  revert w. induction calls as [|[k a] rest IH]; intros w.
  - cbn. rewrite (right_id_L ∅ (∪)). reflexivity.
  - rewrite run_calls_cons. cbn [snd]. rewrite IH, process_payment_store.
    cbn [fmap list_fmap fst list_to_set].
    destruct (processed_keys w !! k) as [v|] eqn:Hk.
    + assert (Hin : k ∈ dom (processed_keys w)) by (apply elem_of_dom; eauto).
      rewrite (assoc_L (∪)). f_equal.
      rewrite (comm_L (∪)). symmetry. apply subseteq_union_1_L.
      apply singleton_subseteq_l, Hin.
    + rewrite dom_insert_L, (assoc_L (∪)). f_equal. apply (comm_L (∪)).
Qed.

(** * The demonstration script *)

(** ** One transaction *)

(** The fields of the state after a transaction, from the call it makes. *)
Lemma transaction_fields (tx_number : nat) (s : script) :
  let k := uuid_tape s (uuid_pos s) in
  let call := process_payment k amount_1000_00 (processor s) in
  let s' := transaction tx_number s in
  uuid_tape s' = uuid_tape s
  /\ uuid_pos s' = S (uuid_pos s)
  /\ processed_keys (processor s') = processed_keys (snd call)
  /\ random_tape (processor s') = random_tape (snd call)
  /\ random_pos (processor s') = random_pos (snd call)
  /\ stdout (processor s')
     = (stdout (snd call)
        ++ ["Transaction " +:+ pretty tx_number +:+ ": Key=" +:+ k +:+ ", Status="
              +:+ status_label (status_of (fst call))])%list
  /\ insertion_order s'
     = match processed_keys (processor s) !! k with
       | Some _ => insertion_order s
       | None => (insertion_order s ++ [k])%list
       end
  /\ failed s'
     = match fst call with
       | Return _ => failed s
       | Raise _ => Some (k, amount_1000_00)
       end.
Proof.
  cbv zeta. unfold transaction, uuid4, call_processor.
  cbn [processor uuid_tape uuid_pos insertion_order failed].
  destruct (process_payment (uuid_tape s (uuid_pos s)) amount_1000_00 (processor s))
    as [[m|[msg]] w]; cbn [fst snd]; repeat split; reflexivity.
Qed.

Lemma random_tape_call (k : string) (a : Decimal) (w : world) :
  random_tape (snd (process_payment k a w)) = random_tape w.
Proof.
  destruct (process_payment_cases k a w) as [[_ ->]|[(_ & _ & ->)|(_ & _ & ->)]];
    reflexivity.
Qed.

Lemma random_pos_call (k : string) (a : Decimal) (w : world) :
  random_pos (snd (process_payment k a w))
  = match processed_keys w !! k with
    | Some _ => random_pos w
    | None => S (random_pos w)
    end.
Proof.
  destruct (process_payment_cases k a w)
    as [[[v Hv] ->]|[(Hk & _ & ->)|(Hk & _ & ->)]];
    [rewrite Hv|rewrite Hk|rewrite Hk]; reflexivity.
Qed.

Lemma stdout_call (k : string) (a : Decimal) (w : world) :
  stdout (snd (process_payment k a w))
  = match processed_keys w !! k with
    | Some _ => stdout w
    | None => (stdout w ++ [processing_line a k])%list
    end.
Proof.
  destruct (process_payment_cases k a w)
    as [[[v Hv] ->]|[(Hk & _ & ->)|(Hk & _ & ->)]];
    [rewrite Hv|rewrite Hk|rewrite Hk]; reflexivity.
Qed.

Lemma script_inv_start (uuids : nat -> string) (tape : nat -> Q) :
  script_inv (start uuids tape).
Proof.
  unfold script_inv, start; cbn [insertion_order processor uuid_pos uuid_tape failed init
                                   processed_keys random_pos].
  split; [constructor|].
  split.
  { intros k. rewrite lookup_empty. split; [intros H; inversion H|intros [? H]; discriminate]. }
  split.
  { intros k. rewrite lookup_empty. split; [intros [? H]; discriminate|intros (i & Hi & _); lia]. }
  split; [intros k v; rewrite lookup_empty; discriminate|].
  split; [lia|discriminate].
Qed.

Lemma script_inv_transaction (tx_number : nat) (s : script) :
  script_inv s -> failed s = None -> script_inv (transaction tx_number s).
Proof.
  intros (Hnd & Hord & Hdom & Hval & Hpos & _) Hnone.
  destruct (transaction_fields tx_number s)
    as (Et & Ep & Es & _ & Er & _ & Eo & Ef).
  set (k0 := uuid_tape s (uuid_pos s)) in *.
  unfold script_inv. rewrite Et, Ep, Es, Er, Eo, Ef.
  rewrite process_payment_store, random_pos_call.
  assert (Hfailed : forall k a,
    match fst (process_payment k0 amount_1000_00 (processor s)) with
    | Return _ => failed s
    | Raise _ => Some (k0, amount_1000_00)
    end = Some (k, a) ->
    a = amount_1000_00 /\ (0 < S (uuid_pos s))%nat
    /\ k = uuid_tape s (pred (S (uuid_pos s)))).
  { intros k a. destruct (fst (process_payment k0 amount_1000_00 (processor s))).
    - rewrite Hnone. discriminate.
    - intros [= <- <-]. cbn [pred]. repeat split. lia. }
  destruct (processed_keys (processor s) !! k0) as [v0|] eqn:Hk0.
  - split; [exact Hnd|]. split; [exact Hord|].
    split.
    { intros k. rewrite Hdom. split.
      - intros (i & Hi & <-). exists i. split; [lia|reflexivity].
      - intros (i & Hi & <-).
        destruct (decide (i = uuid_pos s)) as [->|Hne].
        + apply Hdom. fold k0. rewrite Hk0. eauto.
        + exists i. split; [lia|reflexivity]. }
    split; [exact Hval|]. split; [lia|exact Hfailed].
  - assert (Hnotin : k0 ∉ insertion_order s).
    { intros Hin. apply Hord in Hin. rewrite Hk0 in Hin. destruct Hin; discriminate. }
    split.
    { apply NoDup_app. split; [exact Hnd|]. split; [|apply NoDup_singleton].
      intros x Hx Hx0. apply list_elem_of_singleton in Hx0. subst x. exact (Hnotin Hx). }
    split.
    { intros k. rewrite elem_of_app, list_elem_of_singleton, lookup_insert_is_Some, Hord.
      split.
      - intros [H| ->]; [|left; reflexivity].
        destruct (decide (k0 = k)) as [E|E]; [left; exact E|right; split; assumption].
      - intros [<-|[_ H]]; [right; reflexivity|left; exact H]. }
    split.
    { intros k. rewrite lookup_insert_is_Some, Hdom. split.
      - intros [<-|[_ (i & Hi & <-)]].
        + exists (uuid_pos s). split; [lia|reflexivity].
        + exists i. split; [lia|reflexivity].
      - intros (i & Hi & <-).
        destruct (decide (i = uuid_pos s)) as [->|Hne]; [left; reflexivity|].
        destruct (decide (k0 = uuid_tape s i)) as [E|E]; [left; exact E|].
        right. split; [exact E|]. exists i. split; [lia|reflexivity]. }
    split.
    { intros k v. rewrite lookup_insert_Some.
      intros [[<- <-]|[_ H]]; [reflexivity|exact (Hval k v H)]. }
    split; [lia|exact Hfailed].
Qed.

(** ** The loop *)

Lemma main_loop_failed (tx_numbers : list nat) (s : script) :
  is_Some (failed s) -> main_loop tx_numbers s = s.
Proof. intros [f Hf]. destruct tx_numbers; cbn [main_loop]; [|rewrite Hf]; reflexivity. Qed.

Lemma main_loop_app (l1 l2 : list nat) (s : script) :
  main_loop (l1 ++ l2) s = main_loop l2 (main_loop l1 s).
Proof.
  revert s. induction l1 as [|tx l1 IH]; intros s; [reflexivity|].
  cbn [app main_loop]. destruct (failed s) as [f|] eqn:Hf; [|apply IH].
  symmetry. apply main_loop_failed. rewrite Hf. eauto.
Qed.

Lemma main_loop_inv (tx_numbers : list nat) :
  forall s : script,
    script_inv s ->
    script_inv (main_loop tx_numbers s)
    /\ uuid_tape (main_loop tx_numbers s) = uuid_tape s
    /\ (uuid_pos s <= uuid_pos (main_loop tx_numbers s)
        <= uuid_pos s + length tx_numbers)%nat
    /\ (failed s = None -> tx_numbers <> [] ->
        (uuid_pos s < uuid_pos (main_loop tx_numbers s))%nat).
Proof.
  induction tx_numbers as [|tx rest IH]; intros s Hinv.
  - cbn [main_loop length].
    split; [exact Hinv|]. split; [reflexivity|]. split; [lia|].
    intros _ H. destruct (H eq_refl).
  - cbn [main_loop length]. destruct (failed s) as [f|] eqn:Hf.
    + split; [exact Hinv|]. split; [reflexivity|]. split; [lia|discriminate].
    + destruct (IH (transaction tx s) (script_inv_transaction tx s Hinv Hf))
        as (H1 & H2 & H3 & _).
      destruct (transaction_fields tx s) as (Et & Ep & _).
      rewrite Et in H2. rewrite Ep in H3.
      split; [exact H1|]. split; [exact H2|]. split; [lia|]. intros _ _. lia.
Qed.

Lemma run_transactions_inv (uuids : nat -> string) (tape : nat -> Q) :
  let s := run_transactions uuids tape in
  script_inv s /\ uuid_tape s = uuids
  /\ (1 <= uuid_pos s <= max_transactions)%nat.
Proof.
  cbv zeta. unfold run_transactions.
  destruct (main_loop_inv (seq 1 max_transactions) (start uuids tape)
              (script_inv_start uuids tape)) as (H1 & H2 & H3 & H4).
  rewrite length_seq in H3. cbn [start uuid_pos failed] in H3, H4.
  split; [exact H1|]. split; [exact H2|].
  specialize (H4 eq_refl ltac:(discriminate)). lia.
Qed.

(** ** The retry and the snapshot *)

Lemma retry_of_failed (s : script) (k : string) (a : Decimal) :
  script_inv s -> failed s = Some (k, a) ->
  is_Some (processed_keys (processor s) !! k)
  /\ retry s = script_print (retry_line k) s.
Proof.
  intros (_ & _ & Hdom & _ & _ & Hfail) Hf.
  destruct (Hfail k a Hf) as (_ & Hpos & Hk).
  assert (Hin : is_Some (processed_keys (processor s) !! k)).
  { apply Hdom. exists (pred (uuid_pos s)). split; [lia|congruence]. }
  split; [exact Hin|].
  clear Hdom Hfail Hpos Hk.
  destruct s as [w ut up io f].
  cbn [failed processor] in Hf, Hin. subst f.
  unfold retry, call_processor.
  cbn [failed processor uuid_tape uuid_pos insertion_order].
  rewrite (process_payment_seen k a w Hin).
  destruct Hin as [v Hv]. rewrite Hv. reflexivity.
Qed.

Lemma retry_keeps (s : script) :
  script_inv s ->
  processed_keys (processor (retry s)) = processed_keys (processor s)
  /\ random_pos (processor (retry s)) = random_pos (processor s)
  /\ insertion_order (retry s) = insertion_order s.
Proof.
  intros Hinv. destruct (failed s) as [[k a]|] eqn:Hf.
  - destruct (retry_of_failed s k a Hinv Hf) as [_ ->]. repeat split.
  - unfold retry. rewrite Hf. repeat split.
Qed.

Lemma print_keys_fields (keys : list string) :
  forall s : script,
    let s' := fold_left (fun s' k => script_print (stored_key_line k) s') keys s in
    processed_keys (processor s') = processed_keys (processor s)
    /\ random_pos (processor s') = random_pos (processor s)
    /\ stdout (processor s') = (stdout (processor s) ++ map stored_key_line keys)%list
    /\ insertion_order s' = insertion_order s.
Proof.
  induction keys as [|k keys IH]; intros s; cbn [fold_left map].
  - rewrite app_nil_r. repeat split.
  - destruct (IH (script_print (stored_key_line k) s)) as (H1 & H2 & H3 & H4).
    cbv zeta. rewrite H1, H2, H3, H4.
    cbn [script_print processor print snd processed_keys random_pos stdout insertion_order].
    rewrite <- app_assoc. repeat split.
Qed.

Lemma snapshot_fields (s : script) :
  processed_keys (processor (snapshot s)) = processed_keys (processor s)
  /\ random_pos (processor (snapshot s)) = random_pos (processor s)
  /\ stdout (processor (snapshot s))
     = (stdout (processor s) ++ snapshot_header :: map stored_key_line (insertion_order s))%list
  /\ insertion_order (snapshot s) = insertion_order s.
Proof.
  unfold snapshot.
  destruct (print_keys_fields (insertion_order s)
              (script_print (newline +:+ "Database snapshot (processed_keys):") s))
    as (H1 & H2 & H3 & H4).
  cbv zeta in H1, H2, H3, H4.
  cbn [script_print insertion_order] in *.
  rewrite H1, H2, H3, H4.
  unfold script_print, snapshot_header.
  cbn [processor print snd processed_keys random_pos stdout].
  rewrite <- app_assoc. repeat split.
Qed.

(** X9: when the loop ends on a failed transaction, the retry is
    answered "Already processed" whatever the uuids and the draws: the
    failed key is the last one generated, its outcome is in the store,
    and the retry changes nothing but the output, to which it adds its
    line. *)
Theorem retry_is_already_processed (uuids : nat -> string) (tape : nat -> Q)
    (k : string) (a : Decimal) :
  let s := run_transactions uuids tape in
  failed s = Some (k, a) ->
  retry s = script_print (newline +:+ "Retry Transaction: Key=" +:+ k
                            +:+ ", Status=Already processed") s
  /\ a = amount_1000_00
  /\ k = uuids (pred (uuid_pos s))
  /\ processed_keys (processor s) !! k = Some (success_message amount_1000_00 k).
Proof.
  cbv zeta. intros Hf.
  destruct (run_transactions_inv uuids tape) as (Hinv & Ht & _).
  destruct (retry_of_failed _ k a Hinv Hf) as [[v Hv] Hr].
  pose proof Hinv as (_ & _ & _ & Hval & _ & Hfail).
  destruct (Hfail k a Hf) as (Ha & _ & Hk).
  split; [exact Hr|]. split; [exact Ha|]. split; [congruence|].
  rewrite Hv. f_equal. exact (Hval k v Hv).
Qed.

Lemma retry_is_already_processed_witness :
  retry (run_transactions uuids_tx tape_third)
  = script_print (newline +:+ "Retry Transaction: Key=tx-2, Status=Already processed")
      (run_transactions uuids_tx tape_third).
Proof.
  apply (retry_is_already_processed uuids_tx tape_third "tx-2" amount_1000_00).
  reflexivity.
Defined.

(** X10: whatever the uuids and the draws, the script makes between one
    and eight transactions and draws at most one sample for each; at its
    end the store holds exactly the keys of the transactions made, the
    failed one included, each with the success message of the amount
    1000.00; the retry and the snapshot change no entry. *)
Theorem every_transaction_is_stored (uuids : nat -> string) (tape : nat -> Q) :
  let s := run_transactions uuids tape in
  let final := main uuids tape in
  (1 <= uuid_pos s <= 8)%nat
  /\ (random_pos (processor final) <= uuid_pos s)%nat
  /\ processed_keys (processor final) = processed_keys (processor s)
  /\ (forall k, is_Some (processed_keys (processor final) !! k) <->
                exists i, (i < uuid_pos s)%nat /\ uuids i = k)
  /\ (forall k v, processed_keys (processor final) !! k = Some v ->
                  v = "Success: processed payment of 1000.00 with key " +:+ k).
Proof.
  cbv zeta. unfold main.
  destruct (run_transactions_inv uuids tape) as (Hinv & Ht & Hb).
  destruct (snapshot_fields (retry (run_transactions uuids tape))) as (S1 & S2 & _).
  destruct (retry_keeps _ Hinv) as (R1 & R2 & _).
  rewrite S1, S2, R1, R2.
  destruct Hinv as (_ & _ & Hdom & Hval & Hpos & _).
  rewrite Ht in Hdom.
  split; [exact Hb|]. split; [exact Hpos|]. split; [reflexivity|].
  split; [exact Hdom|exact Hval].
Qed.

(** X11: the snapshot prints its header and then one line for each
    stored key, each key once, in the order the keys entered the store;
    it changes neither the store nor the generator. *)
Theorem snapshot_lists_each_stored_key_once (uuids : nat -> string)
    (tape : nat -> Q) :
  let s := retry (run_transactions uuids tape) in
  let final := main uuids tape in
  let keys := insertion_order s in
  stdout (processor final)
  = (stdout (processor s)
     ++ (newline +:+ "Database snapshot (processed_keys):")
        :: map (fun k => "- Stored Key=" +:+ k) keys)%list
  /\ NoDup keys
  /\ (forall k, k ∈ keys <-> is_Some (processed_keys (processor final) !! k))
  /\ length keys = size (processed_keys (processor final)).
Proof.
  cbv zeta. unfold main.
  destruct (run_transactions_inv uuids tape) as (Hinv & _ & _).
  destruct (snapshot_fields (retry (run_transactions uuids tape))) as (S1 & _ & S3 & _).
  destruct (retry_keeps _ Hinv) as (R1 & _ & R3).
  rewrite S1, S3, R1, R3.
  destruct Hinv as (Hnd & Hord & _).
  split; [reflexivity|]. split; [exact Hnd|]. split; [exact Hord|].
  rewrite <- size_dom.
  assert (Hset : dom (processed_keys (processor (run_transactions uuids tape)))
                 = list_to_set (insertion_order (run_transactions uuids tape))).
  { apply set_eq. intros k. rewrite elem_of_dom, elem_of_list_to_set, Hord. reflexivity. }
  rewrite Hset. symmetry. apply size_list_to_set, Hnd.
Qed.

(** ** Runs with distinct uuids *)

Lemma quiet_run_start (uuids : nat -> string) (tape : nat -> Q) :
  quiet_run (start uuids tape).
Proof.
  unfold quiet_run, start, init;
    cbn [failed processor random_pos uuid_pos processed_keys insertion_order
           uuid_tape stdout seq map flat_map].
  repeat split; try reflexivity.
  - rewrite lookup_empty. intros [? H]; discriminate.
  - intros (i & Hi & _). lia.
Qed.

(** A transaction on a state without failure whose uuid is new: the
    fields of the next state, by the sample. *)
Lemma transaction_new_key (s : script) :
  quiet_run s ->
  (forall i, (i < uuid_pos s)%nat -> uuid_tape s i <> uuid_tape s (uuid_pos s)) ->
  let k := uuid_tape s (uuid_pos s) in
  let fires := float_lt (random_tape (processor s) (uuid_pos s)) float_0_2 in
  let s' := transaction (S (uuid_pos s)) s in
  uuid_tape s' = uuid_tape s
  /\ random_tape (processor s') = random_tape (processor s)
  /\ uuid_pos s' = S (uuid_pos s)
  /\ random_pos (processor s') = S (uuid_pos s)
  /\ size (processed_keys (processor s')) = S (uuid_pos s)
  /\ insertion_order s' = map (uuid_tape s) (seq 0 (S (uuid_pos s)))
  /\ (forall k', is_Some (processed_keys (processor s') !! k') <->
                 exists i, (i < S (uuid_pos s))%nat /\ uuid_tape s i = k')
  /\ failed s' = (if fires then Some (k, amount_1000_00) else None)
  /\ stdout (processor s')
     = (flat_map (transaction_lines (uuid_tape s)) (seq 0 (uuid_pos s))
        ++ [processing_line amount_1000_00 k;
            "Transaction " +:+ pretty (S (uuid_pos s)) +:+ ": Key=" +:+ k
              +:+ ", Status=" +:+ (if fires then "Failed" else "Successful")])%list.
Proof.
  intros (Hf & Hr & Hsz & Ho & Hdom & Hout) Hnew. cbv zeta.
  set (k := uuid_tape s (uuid_pos s)).
  assert (Hk : processed_keys (processor s) !! k = None).
  { destruct (processed_keys (processor s) !! k) as [v|] eqn:E; [|reflexivity].
    assert (His : is_Some (processed_keys (processor s) !! k)) by (rewrite E; eauto).
    apply Hdom in His. destruct His as (i & Hi & Hik). destruct (Hnew i Hi Hik). }
  destruct (transaction_fields (S (uuid_pos s)) s)
    as (Et & Ep & Es & Ert & Er & Eout & Eo & Ef).
  fold k in Es, Ert, Er, Eout, Eo, Ef.
  rewrite Et, Ep, Es, Ert, Er, Eout, Eo, Ef.
  rewrite random_tape_call, random_pos_call, stdout_call, process_payment_store, Hk.
  rewrite (process_payment_fresh k amount_1000_00 (processor s) Hk), after_commit_sample.
  cbn [fst]. unfold next_sample. rewrite Hr, Hf, Ho, Hout.
  split; [reflexivity|]. split; [reflexivity|]. split; [reflexivity|].
  split; [reflexivity|].
  split; [rewrite (map_size_insert_None _ _ _ Hk), Hsz; reflexivity|].
  split; [rewrite seq_S, map_app; reflexivity|].
  split.
  { intros k'. rewrite lookup_insert_is_Some, Hdom. split.
    - intros [<-|[_ (i & Hi & <-)]].
      + exists (uuid_pos s). split; [lia|reflexivity].
      + exists i. split; [lia|reflexivity].
    - intros (i & Hi & <-).
      destruct (decide (i = uuid_pos s)) as [->|Hne]; [left; reflexivity|].
      right. split; [apply not_eq_sym, Hnew; lia|].
      exists i. split; [lia|reflexivity]. }
  destruct (float_lt (random_tape (processor s) (uuid_pos s)) float_0_2);
    split; try reflexivity; rewrite <- app_assoc; reflexivity.
Qed.

Lemma main_loop_quiet (n : nat) :
  forall s : script,
    quiet_run s ->
    (forall i j, (i < j < uuid_pos s + n)%nat -> uuid_tape s i <> uuid_tape s j) ->
    (forall i, (uuid_pos s <= i < uuid_pos s + n)%nat ->
               float_lt (random_tape (processor s) i) float_0_2 = false) ->
    let s' := main_loop (seq (S (uuid_pos s)) n) s in
    quiet_run s' /\ uuid_pos s' = (uuid_pos s + n)%nat
    /\ uuid_tape s' = uuid_tape s
    /\ random_tape (processor s') = random_tape (processor s).
Proof.
  induction n as [|n IH]; intros s Hq Hd Hs.
  - cbn [seq main_loop]. rewrite Nat.add_0_r. split; [exact Hq|]. repeat split.
  - cbn [seq main_loop]. pose proof Hq as (Hf & _). rewrite Hf.
    destruct (transaction_new_key s Hq) as (Et & Ert & Ep & Er & Esz & Eo & Edom & Ef & Eout).
    { intros i Hi. apply Hd. lia. }
    rewrite (Hs (uuid_pos s)) in Ef, Eout by lia.
    set (s1 := transaction (S (uuid_pos s)) s) in *.
    assert (Hq1 : quiet_run s1).
    { unfold quiet_run. rewrite Ef, Er, Esz, Eo, Ep, Et, Eout.
      repeat split; try reflexivity; try (apply Edom).
      rewrite seq_S, flat_map_app. cbn [flat_map]. rewrite app_nil_r. reflexivity. }
    specialize (IH s1 Hq1). rewrite Ep, Et, Ert in IH.
    destruct IH as (H1 & H2 & H3 & H4).
    { intros i j Hij. apply Hd. lia. }
    { intros i Hi. apply Hs. lia. }
    split; [exact H1|]. split; [lia|]. split; assumption.
Qed.

Lemma NoDup_uuids (uuids : nat -> string) (n : nat) :
  NoDup (map uuids (seq 0 n)) ->
  forall i j, (i < j < n)%nat -> uuids i <> uuids j.
Proof.
  intros Hnd i j Hij E.
  assert (Hi : map uuids (seq 0 n) !! i = Some (uuids i)).
  { change (map uuids (seq 0 n)) with (uuids <$> seq 0 n).
    rewrite list_lookup_fmap, lookup_seq_lt by lia. reflexivity. }
  assert (Hj : map uuids (seq 0 n) !! j = Some (uuids i)).
  { change (map uuids (seq 0 n)) with (uuids <$> seq 0 n).
    rewrite list_lookup_fmap, lookup_seq_lt by lia. cbn. rewrite E. reflexivity. }
  pose proof (proj1 (NoDup_alt _) Hnd i j _ Hi Hj). lia.
Qed.

(** X12: when the first eight uuids are distinct and none of the first
    eight samples is below 0.2, the script makes eight transactions, all
    "Successful", draws eight samples, stores eight keys and makes no
    retry; its output is, for each transaction, the line of the processor
    and the line of the script, then the snapshot of the eight keys in
    the order of the transactions. *)
Theorem eight_successful_transactions (uuids : nat -> string) (tape : nat -> Q) :
  NoDup (map uuids (seq 0 8)) ->
  (forall i, (i < 8)%nat -> float_lt (tape i) float_0_2 = false) ->
  let s := run_transactions uuids tape in
  failed s = None
  /\ retry s = s
  /\ uuid_pos s = 8%nat
  /\ random_pos (processor s) = 8%nat
  /\ size (processed_keys (processor s)) = 8%nat
  /\ stdout (processor (main uuids tape))
     = (flat_map (transaction_lines uuids) (seq 0 8)
        ++ snapshot_header :: map stored_key_line (map uuids (seq 0 8)))%list.
Proof.
  intros Hnd Hquiet. cbv zeta.
  destruct (main_loop_quiet 8 (start uuids tape) (quiet_run_start uuids tape))
    as ((Hf & Hr & Hsz & Ho & _ & Hout) & Hp & Ht & _).
  { intros i j Hij. apply (NoDup_uuids uuids 8 Hnd). exact Hij. }
  { intros i Hi. apply Hquiet. cbn [start uuid_pos] in Hi. lia. }
  change (main_loop (seq (S (uuid_pos (start uuids tape))) 8) (start uuids tape))
    with (run_transactions uuids tape) in *.
  cbn [start uuid_pos uuid_tape] in Hp, Ht.
  rewrite Hp in Hr, Hsz, Ho, Hout. rewrite Ht in Ho, Hout.
  assert (Hretry : retry (run_transactions uuids tape) = run_transactions uuids tape)
    by (unfold retry; rewrite Hf; reflexivity).
  split; [exact Hf|]. split; [exact Hretry|]. split; [exact Hp|].
  split; [exact Hr|]. split; [exact Hsz|].
  unfold main. rewrite Hretry.
  destruct (snapshot_fields (run_transactions uuids tape)) as (_ & _ & -> & _).
  rewrite Hout, Ho. reflexivity.
Qed.

Lemma eight_successful_transactions_witness :
  size (processed_keys (processor (run_transactions uuids_tx tape_quiet))) = 8%nat.
Proof.
  apply (eight_successful_transactions uuids_tx tape_quiet).
  - apply (bool_decide_unpack _). vm_compute. exact I.
  - intros i _. reflexivity.
Defined.

(** X13: when the sample of transaction [j + 1] is the first below 0.2
    and the uuids up to it are distinct, the script stops the loop right
    after that transaction: it has made [j + 1] transactions, drawn
    [j + 1] samples and stored [j + 1] keys, the failed one included; its
    output is the lines of the [j] successful transactions, the two
    lines of the failed one, the retry answered "Already processed" and
    the snapshot of the [j + 1] keys. *)
Theorem loop_stops_at_first_failure (uuids : nat -> string) (tape : nat -> Q)
    (j : nat) :
  (j < 8)%nat ->
  NoDup (map uuids (seq 0 (S j))) ->
  (forall i, (i < j)%nat -> float_lt (tape i) float_0_2 = false) ->
  float_lt (tape j) float_0_2 = true ->
  let s := run_transactions uuids tape in
  let final := main uuids tape in
  failed s = Some (uuids j, amount_1000_00)
  /\ uuid_pos final = S j
  /\ random_pos (processor final) = S j
  /\ size (processed_keys (processor final)) = S j
  /\ stdout (processor final)
     = (flat_map (transaction_lines uuids) (seq 0 j)
        ++ [processing_line amount_1000_00 (uuids j);
            "Transaction " +:+ pretty (S j) +:+ ": Key=" +:+ uuids j
              +:+ ", Status=Failed";
            newline +:+ "Retry Transaction: Key=" +:+ uuids j
              +:+ ", Status=Already processed";
            newline +:+ "Database snapshot (processed_keys):"]
        ++ map (fun k => "- Stored Key=" +:+ k) (map uuids (seq 0 (S j))))%list.
Proof.
  intros Hj Hnd Hquiet Hfire. cbv zeta.
  pose proof (NoDup_uuids uuids (S j) Hnd) as Hd.
  (* the first [j] transactions *)
  destruct (main_loop_quiet j (start uuids tape) (quiet_run_start uuids tape))
    as (Hq & Hp & Ht & Hrt).
  { intros i i' Hi. apply Hd. cbn [start uuid_pos] in Hi. lia. }
  { intros i Hi. apply Hquiet. cbn [start uuid_pos] in Hi. lia. }
  cbn [start uuid_pos uuid_tape processor init random_tape Nat.add] in Hp, Ht, Hrt.
  change (S (uuid_pos (start uuids tape))) with 1%nat in *.
  set (sj := main_loop (seq 1 j) (start uuids tape)) in *.
  (* transaction [j + 1] *)
  destruct (transaction_new_key sj Hq) as (Et & _ & Ep & Er & Esz & Eo & _ & Ef & Eout).
  { intros i Hi. rewrite Ht. apply Hd. lia. }
  rewrite Hp, Ht, Hrt in Ef, Eout. rewrite Hfire in Ef, Eout.
  rewrite Hp in Ep, Er, Esz, Eo. rewrite Ht in Eo, Et. rewrite Hp in Et.
  (* the loop stops there *)
  assert (Hs : run_transactions uuids tape = transaction (S j) sj).
  { unfold run_transactions, max_transactions.
    replace 8%nat with (j + S (7 - j))%nat by lia.
    rewrite seq_app, main_loop_app. fold sj.
    cbn [seq main_loop Nat.add]. destruct Hq as (-> & _).
    apply main_loop_failed. rewrite Ef. eauto. }
  destruct (run_transactions_inv uuids tape) as (Hinv & _ & _).
  rewrite Hs in Hinv |- *.
  set (sf := transaction (S j) sj) in *.
  destruct (retry_of_failed sf _ _ Hinv Ef) as [_ Hretry].
  destruct (retry_keeps sf Hinv) as (R1 & R2 & R3).
  destruct (snapshot_fields (retry sf)) as (S1 & S2 & S3 & _).
  unfold main. rewrite Hs. fold sf.
  split; [exact Ef|].
  split.
  { unfold snapshot. 
    assert (Hu : forall keys s0,
      uuid_pos (fold_left (fun s' k => script_print (stored_key_line k) s') keys s0)
      = uuid_pos s0).
    { induction keys as [|k keys IH]; intros s0; [reflexivity|].
      cbn [fold_left]. rewrite IH. reflexivity. }
    rewrite Hu, Hretry. exact Ep. }
  split; [rewrite S2, R2; exact Er|].
  split; [rewrite S1, R1; exact Esz|].
  rewrite S3, R3, Eo, Hretry. unfold script_print at 1.
  cbn [processor print snd stdout]. rewrite Eout.
  unfold retry_line, snapshot_header, stored_key_line.
  rewrite <- !app_assoc. reflexivity.
Qed.

Lemma loop_stops_at_first_failure_witness :
  failed (run_transactions uuids_tx tape_third) = Some ("tx-2", amount_1000_00).
Proof.
  apply (loop_stops_at_first_failure uuids_tx tape_third 2).
  - lia.
  - apply (bool_decide_unpack _). vm_compute. exact I.
  - intros i Hi. destruct i as [|[|i]]; [reflexivity|reflexivity|lia].
  - reflexivity.
Defined.

(** * Callers whose calls interleave *)

(** [process_payment] is the test of line 47 followed by the rest. *)
Lemma process_payment_split (k : string) (a : Decimal) :
  process_payment k a = (seen ← dict_contains k; process_payment_rest k a seen).
Proof. reflexivity. Qed.





